(** * MoodTheramin: the two scene scripts and their frame loop

    A shallow embedding of [src/script.js] (variant 1: three rotating
    meshes) and of the second scene script (variant 2: three moving point
    lights), both built on the same skeleton: module-level scene set-up, a
    [resize] listener, a [tick] callback and an asynchronous [init] that
    waits for the webcam.

    Modelling decisions.
    - JavaScript numbers are read as real numbers ([R]); [Math.sin],
      [Math.cos], [Math.min] and [Math.PI] are [sin], [cos], [Rmin] and [PI].
      Rounding is not modelled.
    - The module-level [const]s that name scene objects are references
      ([Ref.t]) into an object store; the scene holds references, so an
      assignment through a [const] is seen through the scene as well.
    - The rendering library, the orbit controls, the debug panel and the
      browser are collaborators: a call into them is recorded as a step of
      the frame loop ([op]) and, where the scripts read the result back, as a
      field of the session.  The camera pose belongs to the orbit controls
      and is not part of the store; the camera's projection parameters are.
    - What the browser decides (window size, the clock reading of a frame,
      whether the camera is granted) arrives as an [event]. *)

From Stdlib Require Import Reals Lra List Bool ZArith String Lia.
Import ListNotations.
Open Scope R_scope.

(** ** Data model *)

Module Vector3.
Record t : Type := new { x : R; y : R; z : R }.
Definition zero : t := new 0 0 0.
Definition one : t := new 1 1 1.
Definition set_x (v : R) (p : t) : t := new v (y p) (z p).
Definition set_y (v : R) (p : t) : t := new (x p) v (z p).
Definition set_z (v : R) (p : t) : t := new (x p) (y p) v.
End Vector3.

(** The objects the two scripts bind to module-level names (and [screen],
    local to [init]). *)
Module Ref.
Inductive t : Type :=
| ambientLight | directionalLight | pointLight | rectAreaLight
| movingLight1 | movingLight2 | movingLight3
| directionalLightHelper | pointLightHelper | rectAreaLightHelper
| sphere | cube | torus | plane
| camera | screen.

Definition eq_dec (a b : t) : {a = b} + {a <> b}.
Proof. decide equality. Defined.

Definition eqb (a b : t) : bool := if eq_dec a b then true else false.

End Ref.

Inductive Color : Type :=
| Hex (rgb : Z)
| Css (s : string).

Inductive LightType : Type :=
| AmbientLight
| DirectionalLight
| PointLight (distance : R) (decay : option R)
| RectAreaLight (width height : R).

Inductive Geometry : Type :=
| SphereGeometry (radius : R) (widthSegments heightSegments : nat)
| BoxGeometry (width height depth : R)
| TorusGeometry (radius tube : R) (radialSegments tubularSegments : nat)
| PlaneGeometry (width height : R).

(** [material] is the one [MeshStandardMaterial] shared by the primitive
    meshes (its roughness plays no part below); [screenMaterial] is the
    [MeshBasicMaterial] whose map is the video texture. *)
Inductive Material : Type := material | screenMaterial.

Inductive Kind : Type :=
| Light (l : LightType) (color : Color) (intensity : R)
| Mesh (g : Geometry) (m : Material)
| Helper (target : Ref.t) (size : option R).

Record Object3D : Type := mkObject3D {
  kind : Kind;
  position : Vector3.t;
  rotation : Vector3.t;          (* Euler angles *)
  scale : Vector3.t;
  lookAt : option Vector3.t      (* target handed to [lookAt], if any *)
}.

Definition object3D (k : Kind) : Object3D :=
  mkObject3D k Vector3.zero Vector3.zero Vector3.one None.

Definition with_position (f : Vector3.t -> Vector3.t) (o : Object3D) : Object3D :=
  mkObject3D (kind o) (f (position o)) (rotation o) (scale o) (lookAt o).
Definition with_rotation (f : Vector3.t -> Vector3.t) (o : Object3D) : Object3D :=
  mkObject3D (kind o) (position o) (f (rotation o)) (scale o) (lookAt o).
Definition with_scale (f : Vector3.t -> Vector3.t) (o : Object3D) : Object3D :=
  mkObject3D (kind o) (position o) (rotation o) (f (scale o)) (lookAt o).
Definition with_lookAt (target : Vector3.t) (o : Object3D) : Object3D :=
  mkObject3D (kind o) (position o) (rotation o) (scale o) (Some target).
Definition with_intensity (v : R) (o : Object3D) : Object3D :=
  match kind o with
  | Light l c _ =>
      mkObject3D (Light l c v) (position o) (rotation o) (scale o) (lookAt o)
  | _ => o
  end.

Definition intensity (o : Object3D) : option R :=
  match kind o with Light _ _ i => Some i | _ => None end.


Inductive Filter : Type := LinearFilter.
Inductive Format : Type := RGBFormat.

Record VideoTexture : Type := mkVideoTexture {
  minFilter : Filter;
  magFilter : Filter;
  format : Format;
  needsUpdate : bool
}.

(** The perspective camera as the scripts use it: the four constructor
    arguments and the arguments the projection matrix was last computed from
    ([updateProjectionMatrix]). *)
Record Camera : Type := mkCamera {
  fov : R;
  aspect : R;
  near : R;
  far : R;
  projection : R * R * R * R
}.

Record Sizes : Type := mkSizes { width : R; height : R }.

Record Renderer : Type := mkRenderer {
  renderer_width : R;
  renderer_height : R;
  pixelRatio : R
}.

(** Where the promise returned by [setupWebcam] stands. *)
Inductive Capture : Type :=
| AwaitingStream      (* [await getUserMedia] *)
| AwaitingMetadata    (* [await] the [loadedmetadata] promise *)
| Resolved
| Rejected.

Record session : Type := mkSession {
  scene : list Ref.t;                     (* [scene.children] *)
  objs : Ref.t -> option Object3D;
  camera : Camera;
  sizes : Sizes;
  renderer : Renderer;
  videoTexture : option VideoTexture;     (* [null] is [None] *)
  capture : Capture;
  unhandledRejection : bool;
  pendingFrames : nat;                    (* callbacks handed to [requestAnimationFrame] *)
  frames : nat                            (* calls of [renderer.render] *)
}.

(** The steps of the frame loop, in the spec's numbering. *)
Inductive Field : Type :=
| RotationX | RotationY | PositionX | PositionY | PositionZ | ScaleX.

Inductive op : Type :=
| GetElapsedTime
| Assign (r : Ref.t) (f : Field)
| NeedsUpdate
| ControlsUpdate
| Render
| RequestAnimationFrame.



(** ** Session updates *)

Definition set_scene (f : list Ref.t -> list Ref.t) (s : session) : session :=
  mkSession (f (scene s)) (objs s) (camera s) (sizes s) (renderer s)
            (videoTexture s) (capture s) (unhandledRejection s)
            (pendingFrames s) (frames s).
Definition set_objs (f : (Ref.t -> option Object3D) -> Ref.t -> option Object3D)
    (s : session) : session :=
  mkSession (scene s) (f (objs s)) (camera s) (sizes s) (renderer s)
            (videoTexture s) (capture s) (unhandledRejection s)
            (pendingFrames s) (frames s).
Definition set_camera (f : Camera -> Camera) (s : session) : session :=
  mkSession (scene s) (objs s) (f (camera s)) (sizes s) (renderer s)
            (videoTexture s) (capture s) (unhandledRejection s)
            (pendingFrames s) (frames s).
Definition set_sizes (f : Sizes -> Sizes) (s : session) : session :=
  mkSession (scene s) (objs s) (camera s) (f (sizes s)) (renderer s)
            (videoTexture s) (capture s) (unhandledRejection s)
            (pendingFrames s) (frames s).
Definition set_renderer (f : Renderer -> Renderer) (s : session) : session :=
  mkSession (scene s) (objs s) (camera s) (sizes s) (f (renderer s))
            (videoTexture s) (capture s) (unhandledRejection s)
            (pendingFrames s) (frames s).
Definition set_videoTexture (f : option VideoTexture -> option VideoTexture)
    (s : session) : session :=
  mkSession (scene s) (objs s) (camera s) (sizes s) (renderer s)
            (f (videoTexture s)) (capture s) (unhandledRejection s)
            (pendingFrames s) (frames s).
Definition set_capture (c : Capture) (s : session) : session :=
  mkSession (scene s) (objs s) (camera s) (sizes s) (renderer s)
            (videoTexture s) c (unhandledRejection s)
            (pendingFrames s) (frames s).
Definition set_unhandledRejection (b : bool) (s : session) : session :=
  mkSession (scene s) (objs s) (camera s) (sizes s) (renderer s)
            (videoTexture s) (capture s) b (pendingFrames s) (frames s).
Definition set_pendingFrames (f : nat -> nat) (s : session) : session :=
  mkSession (scene s) (objs s) (camera s) (sizes s) (renderer s)
            (videoTexture s) (capture s) (unhandledRejection s)
            (f (pendingFrames s)) (frames s).
Definition set_frames (f : nat -> nat) (s : session) : session :=
  mkSession (scene s) (objs s) (camera s) (sizes s) (renderer s)
            (videoTexture s) (capture s) (unhandledRejection s)
            (pendingFrames s) (f (frames s)).

(** The object store: [alloc] binds a fresh object, [update] writes through
    a reference.  The scripts only write through references they have
    bound; on an unbound one [update] leaves the store as it is. *)
Definition alloc (r : Ref.t) (o : Object3D) (m : Ref.t -> option Object3D)
    : Ref.t -> option Object3D :=
  fun r' => if Ref.eqb r' r then Some o else m r'.

Definition update (r : Ref.t) (f : Object3D -> Object3D)
    (m : Ref.t -> option Object3D) : Ref.t -> option Object3D :=
  fun r' => if Ref.eqb r' r then option_map f (m r') else m r'.

(** ** The monad the scripts run in: session state, and the frame-loop steps
    performed *)

Definition M (A : Type) : Type := session -> A * session * list op.

Definition ret {A : Type} (a : A) : M A := fun s => (a, s, []).

Definition bind {A B : Type} (m : M A) (k : A -> M B) : M B :=
  fun s =>
    let '(a, s1, l1) := m s in
    let '(b, s2, l2) := k a s1 in
    (b, s2, l1 ++ l2).

Notation "x <- c1 ;; c2" := (bind c1 (fun x => c2))
  (at level 61, c1 at next level, right associativity).
Notation "c1 ;; c2" := (bind c1 (fun _ => c2))
  (at level 61, right associativity).

Definition gets {A : Type} (f : session -> A) : M A := fun s => (f s, s, []).
Definition modify (f : session -> session) : M unit := fun s => (tt, f s, []).
Definition tell (o : op) : M unit := fun s => (tt, s, [o]).

Definition exec {A : Type} (m : M A) (s : session) : session := snd (fst (m s)).

(** *** The statements the scripts are made of *)

(** [const r = new ...] *)
Definition new (r : Ref.t) (k : Kind) : M unit :=
  modify (set_objs (alloc r (object3D k))).

(** [scene.add(r)]: [r] leaves the parent it had and becomes the last child. *)
Definition scene_add (r : Ref.t) : M unit :=
  modify (set_scene (fun l => remove Ref.eq_dec r l ++ [r])).

Definition position_set (r : Ref.t) (x y z : R) : M unit :=
  modify (set_objs (update r (with_position (fun _ => Vector3.new x y z)))).
Definition scale_set (r : Ref.t) (x y z : R) : M unit :=
  modify (set_objs (update r (with_scale (fun _ => Vector3.new x y z)))).
Definition lookAt_ (r : Ref.t) (target : Vector3.t) : M unit :=
  modify (set_objs (update r (with_lookAt target))).

(** [r.position.x = v] and its siblings. *)
Definition assign (r : Ref.t) (f : Field) (v : R) : M unit :=
  tell (Assign r f) ;;
  modify (set_objs (update r
    match f with
    | RotationX => with_rotation (Vector3.set_x v)
    | RotationY => with_rotation (Vector3.set_y v)
    | PositionX => with_position (Vector3.set_x v)
    | PositionY => with_position (Vector3.set_y v)
    | PositionZ => with_position (Vector3.set_z v)
    | ScaleX => with_scale (Vector3.set_x v)
    end)).

(** [clock.getElapsedTime()]; the reading is the browser's. *)
Definition clock_getElapsedTime (reading : R) : M R :=
  tell GetElapsedTime ;; ret reading.

(** [if (videoTexture) { videoTexture.needsUpdate = true; }] *)
Definition update_video_texture : M unit :=
  vt <- gets videoTexture ;;
  match vt with
  | Some _ =>
      tell NeedsUpdate ;;
      modify (set_videoTexture (option_map (fun t =>
        mkVideoTexture (minFilter t) (magFilter t) (format t) true)))
  | None => ret tt
  end.

Definition controls_update : M unit := tell ControlsUpdate.

Definition renderer_render : M unit :=
  tell Render ;; modify (set_frames S).

Definition requestAnimationFrame : M unit :=
  tell RequestAnimationFrame ;; modify (set_pendingFrames S).

(** [new THREE.PerspectiveCamera(fov, aspect, near, far)] computes the
    projection once. *)
Definition PerspectiveCamera (fov aspect near far : R) : Camera :=
  mkCamera fov aspect near far (fov, aspect, near, far).

Definition camera_updateProjectionMatrix : M unit :=
  modify (set_camera (fun c =>
    mkCamera (fov c) (aspect c) (near c) (far c)
             (fov c, aspect c, near c, far c))).

Definition renderer_setSize (w h : R) : M unit :=
  modify (set_renderer (fun r => mkRenderer w h (pixelRatio r))).
Definition renderer_setPixelRatio (v : R) : M unit :=
  modify (set_renderer (fun r =>
    mkRenderer (renderer_width r) (renderer_height r) v)).

(** The [resize] listener, the same text in both scripts. *)
Definition onResize (innerWidth innerHeight devicePixelRatio : R) : M unit :=
  (* Update sizes *)
  modify (set_sizes (fun z => mkSizes innerWidth (height z))) ;;
  modify (set_sizes (fun z => mkSizes (width z) innerHeight)) ;;
  (* Update camera *)
  z <- gets sizes ;;
  modify (set_camera (fun c =>
    mkCamera (fov c) (width z / height z) (near c) (far c) (projection c))) ;;
  camera_updateProjectionMatrix ;;
  (* Update renderer *)
  z <- gets sizes ;;
  renderer_setSize (width z) (height z) ;;
  renderer_setPixelRatio (Rmin devicePixelRatio 2).

(** The module state that is not part of the scene graph, as the module
    body leaves it: [sizes], [camera], [renderer], [videoTexture = null],
    and [init()] suspended at its first [await]. *)
Definition blank (innerWidth innerHeight devicePixelRatio : R) : session :=
  {| scene := [];
     objs := fun _ => None;
     camera := PerspectiveCamera 75 (innerWidth / innerHeight) 0.1 100;
     sizes := mkSizes innerWidth innerHeight;
     renderer := mkRenderer innerWidth innerHeight (Rmin devicePixelRatio 2);
     videoTexture := None;
     capture := AwaitingStream;
     unhandledRejection := false;
     pendingFrames := 0;
     frames := 0 |}.

(** A slider of the debug panel: [gui.add(target, "intensity").min(..).max(..).step(..).name(..)]. *)
Record controller : Type := mkController {
  c_target : Ref.t;
  c_min : R;
  c_max : R;
  c_step : R;
  c_name : string
}.

Record script : Type := mkScript {
  build : M unit;              (* the scene-graph statements of the module body *)
  controllers : list controller;
  tick : R -> M unit;          (* the argument is the clock reading *)
  init : R -> M unit           (* [init] from the point [setupWebcam()] has resolved *)
}.

(** ** Variant 1: [src/script.js] *)

Module Script.

Definition build : M unit :=
  (* Lights *)
  new Ref.ambientLight (Light AmbientLight (Hex 0xffffff) 0.0) ;;
  scene_add Ref.ambientLight ;;
  new Ref.directionalLight (Light DirectionalLight (Hex 0x00fffc) 0.0) ;;
  position_set Ref.directionalLight 1 0.25 0 ;;
  scene_add Ref.directionalLight ;;
  new Ref.pointLight (Light (PointLight 10 (Some 6)) (Hex 0xff9000) 1.0) ;;
  position_set Ref.pointLight 1 (-0.5) 1 ;;
  scene_add Ref.pointLight ;;
  new Ref.rectAreaLight (Light (RectAreaLight 1 1) (Hex 0x4e00ff) 3) ;;
  position_set Ref.rectAreaLight (-1.5) 0 1.5 ;;
  lookAt_ Ref.rectAreaLight Vector3.zero ;;
  scene_add Ref.rectAreaLight ;;
  (* Helpers *)
  new Ref.directionalLightHelper (Helper Ref.directionalLight (Some 0.2)) ;;
  scene_add Ref.directionalLightHelper ;;
  new Ref.pointLightHelper (Helper Ref.pointLight (Some 0.2)) ;;
  scene_add Ref.pointLightHelper ;;
  new Ref.rectAreaLightHelper (Helper Ref.rectAreaLight None) ;;
  scene_add Ref.rectAreaLightHelper ;;
  (* Objects *)
  new Ref.sphere (Mesh (SphereGeometry 0.5 32 32) material) ;;
  assign Ref.sphere PositionX (-1.5) ;;
  new Ref.cube (Mesh (BoxGeometry 0.75 0.75 0.75) material) ;;
  new Ref.torus (Mesh (TorusGeometry 0.3 0.2 32 64) material) ;;
  assign Ref.torus PositionX 1.5 ;;
  new Ref.plane (Mesh (PlaneGeometry 5 5) material) ;;
  assign Ref.plane RotationX ((- PI) * 0.5) ;;
  assign Ref.plane PositionY (-0.65) ;;
  scene_add Ref.sphere ;;
  scene_add Ref.cube ;;
  scene_add Ref.torus ;;
  scene_add Ref.plane ;;
  (* Camera *)
  scene_add Ref.camera.

Definition controllers : list controller :=
  [ mkController Ref.ambientLight 0 1 0.0001 "Ambient Intensity";
    mkController Ref.directionalLight 0 1 0.0001 "Directional Int.";
    mkController Ref.pointLight 0 5 0.001 "Point Int.";
    mkController Ref.rectAreaLight 0 10 0.001 "RectArea Int." ].

Definition tick (reading : R) : M unit :=
  elapsedTime <- clock_getElapsedTime reading ;;
  (* Update objects *)
  assign Ref.sphere RotationY (0.1 * elapsedTime) ;;
  assign Ref.cube RotationY (0.1 * elapsedTime) ;;
  assign Ref.torus RotationY (0.1 * elapsedTime) ;;
  assign Ref.sphere RotationX (0.15 * elapsedTime) ;;
  assign Ref.cube RotationX (0.15 * elapsedTime) ;;
  assign Ref.torus RotationX (0.15 * elapsedTime) ;;
  (* Update video texture *)
  update_video_texture ;;
  (* Update controls *)
  controls_update ;;
  (* Render *)
  renderer_render ;;
  (* Call tick again on the next frame *)
  requestAnimationFrame.

Definition init (reading : R) : M unit :=
  (* Create a texture from the video element *)
  modify (set_videoTexture (fun _ =>
    Some (mkVideoTexture LinearFilter LinearFilter RGBFormat false))) ;;
  (* Create a plane geometry and material using the video texture *)
  new Ref.screen (Mesh (PlaneGeometry (16 / 9) 1) screenMaterial) ;;
  (* Position the screen in the scene *)
  position_set Ref.screen 0 1 (-5) ;;
  scene_add Ref.screen ;;
  (* Start the animation loop *)
  tick reading.

Definition program : script := mkScript build controllers tick init.

End Script.

(** ** Variant 2: the moving-lights script *)

Module MovingLights.

Definition epsilon : R := 0.01.

Definition build : M unit :=
  (* Lights *)
  new Ref.ambientLight (Light AmbientLight (Hex 0xffffff) 0.0) ;;
  scene_add Ref.ambientLight ;;
  (* Moving Lights *)
  new Ref.movingLight1 (Light (PointLight 3 None) (Css "#ff00ff") 2) ;;
  scene_add Ref.movingLight1 ;;
  new Ref.movingLight2 (Light (PointLight 3 None) (Css "#00ffff") 2) ;;
  scene_add Ref.movingLight2 ;;
  new Ref.movingLight3 (Light (PointLight 3 None) (Css "#ffffff") 2) ;;
  scene_add Ref.movingLight3 ;;
  new Ref.rectAreaLight (Light (RectAreaLight 1 1) (Hex 0x4e00ff) 3) ;;
  position_set Ref.rectAreaLight 0 0 (- epsilon) ;;
  scale_set Ref.rectAreaLight (4 / 3 + 0.2) 1.2 1 ;;
  lookAt_ Ref.rectAreaLight Vector3.zero ;;
  scene_add Ref.rectAreaLight ;;
  new Ref.directionalLight (Light DirectionalLight (Hex 0x00fffc) 0.5) ;;
  position_set Ref.directionalLight 1 0.25 0 ;;
  scene_add Ref.directionalLight ;;
  (* Helpers *)
  new Ref.rectAreaLightHelper (Helper Ref.rectAreaLight None) ;;
  scene_add Ref.rectAreaLightHelper ;;
  (* Objects *)
  new Ref.plane (Mesh (PlaneGeometry 5 5) material) ;;
  assign Ref.plane RotationX ((- PI) * 0.5) ;;
  assign Ref.plane PositionY (-0.65) ;;
  scene_add Ref.plane ;;
  (* Camera *)
  scene_add Ref.camera.

Definition controllers : list controller :=
  [ mkController Ref.ambientLight 0 1 0.0001 "Ambient Intensity";
    mkController Ref.rectAreaLight 0 10 0.001 "RectArea Int.";
    mkController Ref.directionalLight 0 1 0.0001 "Directional Int." ].

Definition tick (reading : R) : M unit :=
  elapsedTime <- clock_getElapsedTime reading ;;
  (* Update video texture *)
  update_video_texture ;;
  (* Update moving lights *)
  let movingLight1Angle := elapsedTime * 0.5 in
  assign Ref.movingLight1 PositionX (cos movingLight1Angle * 2) ;;
  assign Ref.movingLight1 PositionZ (sin movingLight1Angle * 2) ;;
  assign Ref.movingLight1 PositionY (sin elapsedTime * 1) ;;
  let movingLight2Angle := (- elapsedTime) * 0.5 in
  assign Ref.movingLight2 PositionX (cos movingLight2Angle * 2.5) ;;
  assign Ref.movingLight2 PositionZ (sin movingLight2Angle * 2.55) ;;
  assign Ref.movingLight2 PositionY
    (sin (elapsedTime * 2) + sin (elapsedTime * 2.5)) ;;
  let movingLight3Angle := elapsedTime * 0.25 in
  assign Ref.movingLight3 PositionX
    (cos movingLight3Angle * (2 + sin (elapsedTime * 0.32))) ;;
  assign Ref.movingLight3 PositionZ
    (sin movingLight3Angle * (3 + sin (elapsedTime * 0.5))) ;;
  assign Ref.movingLight3 PositionY
    (sin (elapsedTime * 1.5) + sin (elapsedTime * 1.5)) ;;
  (* Update controls *)
  controls_update ;;
  (* Render *)
  renderer_render ;;
  (* Call tick again on the next frame *)
  requestAnimationFrame.

Definition init (reading : R) : M unit :=
  (* Create a texture from the video element *)
  modify (set_videoTexture (fun _ =>
    Some (mkVideoTexture LinearFilter LinearFilter RGBFormat false))) ;;
  (* Create a plane geometry and material using the video texture *)
  new Ref.screen (Mesh (PlaneGeometry (4 / 3) 1) screenMaterial) ;;
  (* Position the screen in the scene *)
  position_set Ref.screen 0 0 0 ;;
  assign Ref.screen ScaleX (-1) ;;
  scene_add Ref.screen ;;
  (* Start the animation loop *)
  tick reading.

Definition program : script := mkScript build controllers tick init.

End MovingLights.

Inductive variant : Type := Variant1 | Variant2.

Definition program (v : variant) : script :=
  match v with
  | Variant1 => Script.program
  | Variant2 => MovingLights.program
  end.

(** ** The session as an event-driven machine *)

Inductive event : Type :=
| StreamGranted                          (* [getUserMedia] resolves *)
| StreamDenied                           (* [getUserMedia] rejects *)
| MetadataLoaded (reading : R)           (* [onloadedmetadata] fires *)
| AnimationFrame (reading : R)           (* the browser runs a pending frame callback *)
| Resize (innerWidth innerHeight devicePixelRatio : R)
| PanelInput (target : Ref.t) (value : R).

(** The debug panel writes the input, clamped to the slider's range, to the
    [intensity] of the object the slider is bound to. *)
Definition panel_write (p : script) (target : Ref.t) (value : R) : M unit :=
  match find (fun c => Ref.eqb (c_target c) target) (controllers p) with
  | Some c =>
      modify (set_objs (update target
        (with_intensity (Rmax (c_min c) (Rmin (c_max c) value)))))
  | None => ret tt
  end.

Definition step (p : script) (e : event) (s : session) : session :=
  match e with
  | StreamGranted =>
      match capture s with
      | AwaitingStream => set_capture AwaitingMetadata s
      | _ => s
      end
  | StreamDenied =>
      match capture s with
      | AwaitingStream => set_unhandledRejection true (set_capture Rejected s)
      | _ => s
      end
  | MetadataLoaded reading =>
      match capture s with
      | AwaitingMetadata => exec (init p reading) (set_capture Resolved s)
      | _ => s
      end
  | AnimationFrame reading =>
      match pendingFrames s with
      | S n => exec (tick p reading) (set_pendingFrames (fun _ => n) s)
      | O => s
      end
  | Resize w h d => exec (onResize w h d) s
  | PanelInput target value => exec (panel_write p target value) s
  end.

(** The session once the module body has run, in a window of the given
    size. *)
Definition boot (p : script) (innerWidth innerHeight devicePixelRatio : R) : session :=
  exec (build p) (blank innerWidth innerHeight devicePixelRatio).

Definition run (p : script) (evs : list event) (s : session) : session :=
  fold_left (fun s e => step p e s) evs s.

(** The frame loop fed a sequence of clock readings: [tick] once per
    reading. *)
Definition frame_loop (p : script) (readings : list R) (s : session) : session :=
  fold_left (fun s t => exec (tick p t) s) readings s.

(** ** Observations the properties are stated with *)

Definition position_of (s : session) (r : Ref.t) : option Vector3.t :=
  option_map position (objs s r).
Definition rotation_of (s : session) (r : Ref.t) : option Vector3.t :=
  option_map rotation (objs s r).

(** The objects [tick] animates: the meshes it rotates (variant 1) and the
    lights it moves (variant 2). *)
Definition rotates (v : variant) (r : Ref.t) : bool :=
  match v, r with
  | Variant1, (Ref.sphere | Ref.cube | Ref.torus) => true
  | _, _ => false
  end.

Definition moves (v : variant) (r : Ref.t) : bool :=
  match v, r with
  | Variant2, (Ref.movingLight1 | Ref.movingLight2 | Ref.movingLight3) => true
  | _, _ => false
  end.

(** The transform values a frame produces: per rotating mesh its
    [rotation.x] and [rotation.y], per moving light its position. *)
Definition transforms (v : variant) (s : session) : list (option (list R)) :=
  match v with
  | Variant1 =>
      map (fun r => option_map (fun o =>
             [Vector3.x (rotation o); Vector3.y (rotation o)]) (objs s r))
          [Ref.sphere; Ref.cube; Ref.torus]
  | Variant2 =>
      map (fun r => option_map (fun o =>
             [Vector3.x (position o); Vector3.y (position o);
              Vector3.z (position o)]) (objs s r))
          [Ref.movingLight1; Ref.movingLight2; Ref.movingLight3]
  end.

(** The same values, from the spec's formulas. *)
Definition formulas (v : variant) (t : R) : list (option (list R)) :=
  match v with
  | Variant1 =>
      [Some [0.15 * t; 0.1 * t]; Some [0.15 * t; 0.1 * t];
       Some [0.15 * t; 0.1 * t]]
  | Variant2 =>
      [Some [2 * cos (0.5 * t); sin t; 2 * sin (0.5 * t)];
       Some [2.5 * cos (- 0.5 * t); sin (2 * t) + sin (2.5 * t);
             2.55 * sin (- 0.5 * t)];
       Some [(2 + sin (0.32 * t)) * cos (0.25 * t); 2 * sin (1.5 * t);
             (3 + sin (0.5 * t)) * sin (0.25 * t)]]
  end.





(** The frame loop is alive when a [tick] is waiting for the next frame. *)
Definition frame_loop_runs (s : session) : Prop := (0 < pendingFrames s)%nat.

(** The screen mesh [init] builds. *)
Definition screen_of (v : variant) : Object3D :=
  match v with
  | Variant1 =>
      mkObject3D (Mesh (PlaneGeometry (16 / 9) 1) screenMaterial)
                 (Vector3.new 0 1 (-5)) Vector3.zero Vector3.one None
  | Variant2 =>
      mkObject3D (Mesh (PlaneGeometry (4 / 3) 1) screenMaterial)
                 (Vector3.new 0 0 0) Vector3.zero (Vector3.new (-1) 1 1) None
  end.

(** The store [tick] leaves, given the one it finds. *)
Definition tick_store (v : variant) (t : R)
    (m : Ref.t -> option Object3D) : Ref.t -> option Object3D :=
  fun r =>
    if rotates v r then
      option_map (with_rotation (fun e =>
        Vector3.new (0.15 * t) (0.1 * t) (Vector3.z e))) (m r)
    else if moves v r then
      option_map (with_position (fun _ =>
        match r with
        | Ref.movingLight1 =>
            Vector3.new (cos (t * 0.5) * 2) (sin t * 1) (sin (t * 0.5) * 2)
        | Ref.movingLight2 =>
            Vector3.new (cos ((- t) * 0.5) * 2.5)
                        (sin (t * 2) + sin (t * 2.5))
                        (sin ((- t) * 0.5) * 2.55)
        | _ =>
            Vector3.new (cos (t * 0.25) * (2 + sin (t * 0.32)))
                        (sin (t * 1.5) + sin (t * 1.5))
                        (sin (t * 0.25) * (3 + sin (t * 0.5)))
        end)) (m r)
    else m r.

Definition mark (vt : VideoTexture) : VideoTexture :=
  mkVideoTexture (minFilter vt) (magFilter vt) (format vt) true.

(** What the events never change in an object: everything but the
    intensity a slider writes, the two angles [tick] writes to a rotating
    mesh, and the position [tick] writes to a moving light. *)
Definition erase (v : variant) (r : Ref.t) (o : Object3D) : Object3D :=
  let o1 := with_intensity 0 o in
  let o2 :=
    if rotates v r
    then with_rotation (fun e => Vector3.new 0 0 (Vector3.z e)) o1
    else o1 in
  if moves v r then with_position (fun _ => Vector3.zero) o2 else o2.

(** The store the module body builds (the window plays no part in it). *)
Definition layout (v : variant) : Ref.t -> option Object3D :=
  objs (boot (program v) 0 0 0).

Definition no_screen (s : session) : Prop :=
  count_occ Ref.eq_dec (scene s) Ref.screen = 0%nat /\
  videoTexture s = None /\
  objs s Ref.screen = None /\
  pendingFrames s = 0%nat /\
  frames s = 0%nat.

(** Apart from [screen], the store holds the objects the module body
    bound, unchanged but for what [erase] leaves out. *)
Definition store_ok (v : variant) (s : session) : Prop :=
  forall r, r <> Ref.screen ->
    option_map (erase v r) (objs s r) = option_map (erase v r) (layout v r).

(** The invariant of the session. *)
Record good (v : variant) (s : session) : Prop := mkGood {
  good_store : store_ok v s;
  good_capture :
    match capture s with
    | Resolved =>
        count_occ Ref.eq_dec (scene s) Ref.screen = 1%nat /\
        videoTexture s <> None /\
        objs s Ref.screen = Some (screen_of v) /\
        unhandledRejection s = false
    | Rejected => no_screen s /\ unhandledRejection s = true
    | _ => no_screen s /\ unhandledRejection s = false
    end
}.

(** ** Further observations *)

Definition intensity_of (s : session) (r : Ref.t) : option R :=
  match objs s r with Some o => intensity o | None => None end.

(** The slider bound to an object, as [panel_write] looks it up. *)
Definition controller_of (p : script) (r : Ref.t) : option controller :=
  find (fun c => Ref.eqb (c_target c) r) (controllers p).

(** The children the module body gives the scene. *)
Definition scene_of (v : variant) : list Ref.t :=
  match v with
  | Variant1 =>
      [Ref.ambientLight; Ref.directionalLight; Ref.pointLight;
       Ref.rectAreaLight; Ref.directionalLightHelper; Ref.pointLightHelper;
       Ref.rectAreaLightHelper; Ref.sphere; Ref.cube; Ref.torus; Ref.plane;
       Ref.camera]
  | Variant2 =>
      [Ref.ambientLight; Ref.movingLight1; Ref.movingLight2;
       Ref.movingLight3; Ref.rectAreaLight; Ref.directionalLight;
       Ref.rectAreaLightHelper; Ref.plane; Ref.camera]
  end.

(** The box a moving light stays in: half-widths along x, y and z. *)
Definition reach (r : Ref.t) : R * R * R :=
  match r with
  | Ref.movingLight1 => (2, 1, 2)
  | Ref.movingLight2 => (2.5, 2, 2.55)
  | _ => (3, 2, 4)
  end.

Definition in_box (r : Ref.t) (p : Vector3.t) : Prop :=
  let '(bx, by_, bz) := reach r in
  (- bx <= Vector3.x p <= bx) /\
  (- by_ <= Vector3.y p <= by_) /\
  (- bz <= Vector3.z p <= bz).

(** What holds of the session whatever the events: the scene, the frame
    loop, the camera and render surface, the intensities and the animated
    transforms. *)
Record steady (v : variant) (s : session) : Prop := mkSteady {
  steady_scene :
    scene s =
    scene_of v ++ match capture s with Resolved => [Ref.screen] | _ => [] end;
  steady_loop :
    match capture s with
    | Resolved => pendingFrames s = 1%nat /\ (1 <= frames s)%nat
    | _ => pendingFrames s = 0%nat /\ frames s = 0%nat
    end;
  steady_texture :
    match capture s with
    | Resolved =>
        videoTexture s =
        Some (mkVideoTexture LinearFilter LinearFilter RGBFormat true)
    | _ => videoTexture s = None
    end;
  steady_camera :
    fov (camera s) = 75 /\ near (camera s) = 0.1 /\ far (camera s) = 100 /\
    projection (camera s) =
      (fov (camera s), aspect (camera s), near (camera s), far (camera s));
  steady_surface :
    renderer_width (renderer s) = width (sizes s) /\
    renderer_height (renderer s) = height (sizes s) /\
    aspect (camera s) = width (sizes s) / height (sizes s) /\
    pixelRatio (renderer s) <= 2;
  steady_intensity : forall r,
    match controller_of (program v) r with
    | Some c => exists i, intensity_of s r = Some i /\ c_min c <= i <= c_max c
    | None => intensity_of s r = intensity_of (boot (program v) 0 0 0) r
    end;
  steady_rotation : exists a, forall r, rotates v r = true ->
    rotation_of s r = Some (Vector3.new (0.15 * a) (0.1 * a) 0);
  steady_box : forall r, moves v r = true ->
    exists p, position_of s r = Some p /\ in_box r p
}.

(** * Proofs *)

(** ** What each handler does to the session *)

Lemma tick_objs (v : variant) (t : R) (s : session) (r : Ref.t) :
  objs (exec (tick (program v) t) s) r = tick_store v t (objs s) r.
Proof.
  destruct s as [sc ob ca sz re vt cp ur pf fr].
  destruct vt, v, r; try reflexivity.
  all: unfold tick_store; cbn [rotates moves objs].
  all: lazy -[Rmult Rplus cos sin Ropp IZR Rdiv]; destruct (ob _); reflexivity.
Qed.

Lemma tick_rest (v : variant) (t : R) (s : session) :
  let s' := exec (tick (program v) t) s in
  scene s' = scene s /\ camera s' = camera s /\ sizes s' = sizes s /\
  renderer s' = renderer s /\
  videoTexture s' = option_map mark (videoTexture s) /\
  capture s' = capture s /\
  unhandledRejection s' = unhandledRejection s /\
  pendingFrames s' = S (pendingFrames s) /\ frames s' = S (frames s).
Proof.
  destruct s as [sc ob ca sz re vt cp ur pf fr].
  destruct vt, v; repeat split; reflexivity.
Qed.

Lemma init_objs (v : variant) (t : R) (s : session) (r : Ref.t) :
  objs (exec (init (program v) t) s) r =
  if Ref.eqb r Ref.screen then Some (screen_of v) else tick_store v t (objs s) r.
Proof.
  destruct s as [sc ob ca sz re vt cp ur pf fr].
  destruct v, r; try reflexivity.
  all: unfold tick_store; cbn [rotates moves objs].
  all: lazy -[Rmult Rplus cos sin Ropp IZR Rdiv]; destruct (ob _); reflexivity.
Qed.

Lemma init_rest (v : variant) (t : R) (s : session) :
  let s' := exec (init (program v) t) s in
  scene s' = remove Ref.eq_dec Ref.screen (scene s) ++ [Ref.screen] /\
  camera s' = camera s /\ sizes s' = sizes s /\ renderer s' = renderer s /\
  videoTexture s' =
    Some (mkVideoTexture LinearFilter LinearFilter RGBFormat true) /\
  capture s' = capture s /\
  unhandledRejection s' = unhandledRejection s /\
  pendingFrames s' = S (pendingFrames s) /\ frames s' = S (frames s).
Proof.
  destruct s as [sc ob ca sz re vt cp ur pf fr].
  destruct v; repeat split; reflexivity.
Qed.

Lemma onResize_shape (w h d : R) (s : session) :
  exec (onResize w h d) s =
  mkSession (scene s) (objs s)
    (mkCamera (fov (camera s)) (w / h) (near (camera s)) (far (camera s))
              (fov (camera s), w / h, near (camera s), far (camera s)))
    (mkSizes w h) (mkRenderer w h (Rmin d 2))
    (videoTexture s) (capture s) (unhandledRejection s)
    (pendingFrames s) (frames s).
Proof. reflexivity. Qed.

Lemma panel_write_rest (p : script) (r : Ref.t) (x : R) (s : session) :
  let s' := exec (panel_write p r x) s in
  scene s' = scene s /\ camera s' = camera s /\ sizes s' = sizes s /\
  renderer s' = renderer s /\ videoTexture s' = videoTexture s /\
  capture s' = capture s /\
  unhandledRejection s' = unhandledRejection s /\
  pendingFrames s' = pendingFrames s /\ frames s' = frames s.
Proof.
  unfold panel_write. destruct (find _ _); repeat split; reflexivity.
Qed.


Lemma panel_write_objs (p : script) (r : Ref.t) (x : R) (s : session) (r' : Ref.t) :
  objs (exec (panel_write p r x) s) r' = objs s r' \/
  exists y, objs (exec (panel_write p r x) s) r' =
            option_map (with_intensity y) (objs s r').
Proof.
  unfold panel_write. destruct (find _ _) as [c|]; [|left; reflexivity].
  cbn. unfold update. destruct (Ref.eqb r' r); [right; eexists; reflexivity | left; reflexivity].
Qed.

(** ** The parts of an object the events leave alone *)

Lemma erase_with_intensity (v : variant) (r : Ref.t) (y : R) (o : Object3D) :
  erase v r (with_intensity y o) = erase v r o.
Proof.
  destruct o as [k p e sc la]. unfold erase.
  destruct k, (rotates v r), (moves v r); reflexivity.
Qed.

Lemma erase_tick_store (v : variant) (t : R) (m : Ref.t -> option Object3D)
    (r : Ref.t) :
  option_map (erase v r) (tick_store v t m r) = option_map (erase v r) (m r).
Proof.
  unfold tick_store, erase.
  destruct (rotates v r) eqn:Hr, (moves v r) eqn:Hm, (m r) as [[k p e sc la]|];
    try reflexivity; destruct k; reflexivity.
Qed.

Lemma tick_store_screen (v : variant) (t : R) (m : Ref.t -> option Object3D) :
  tick_store v t m Ref.screen = m Ref.screen.
Proof. destruct v; reflexivity. Qed.

Lemma with_intensity_screen (v : variant) (y : R) :
  with_intensity y (screen_of v) = screen_of v.
Proof. destruct v; reflexivity. Qed.

Lemma count_occ_scene_add (r : Ref.t) (l : list Ref.t) :
  count_occ Ref.eq_dec (remove Ref.eq_dec r l ++ [r]) r = 1%nat.
Proof.
  rewrite count_occ_app.
  replace (count_occ Ref.eq_dec (remove Ref.eq_dec r l) r) with 0%nat.
  - cbn. destruct (Ref.eq_dec r r); congruence.
  - symmetry. apply count_occ_not_In, remove_In.
Qed.

Lemma Ref_eqb_neq (a b : Ref.t) : a <> b -> Ref.eqb a b = false.
Proof. unfold Ref.eqb. destruct (Ref.eq_dec a b); congruence. Qed.

(** ** The invariant *)

Lemma boot_good (v : variant) (w h d : R) : good v (boot (program v) w h d).
Proof.
  split.
  - intros r _. unfold layout. destruct v, r; reflexivity.
  - destruct v; cbn; repeat split; reflexivity.
Qed.

Lemma step_good (v : variant) (e : event) (s : session) :
  good v s -> good v (step (program v) e s).
Proof.
  intros [Hst Hcap]. destruct e; cbn [step].
  - (* StreamGranted *)
    destruct (capture s) eqn:C; try (split; [assumption | rewrite C; assumption]).
    split; [exact Hst | exact Hcap].
  - destruct (capture s) eqn:C; try (split; [assumption | rewrite C; assumption]).
    split; [exact Hst |].
    destruct Hcap as [Hn _]. split; [exact Hn | reflexivity].
  - (* MetadataLoaded *)
    destruct (capture s) eqn:C; try (split; [assumption | rewrite C; assumption]).
    destruct (init_rest v reading (set_capture Resolved s))
      as (Hsc & _ & _ & _ & Hvt & Hc & Hu & _ & _).
    split.
    + intros r Hr. rewrite init_objs, (Ref_eqb_neq _ _ Hr), erase_tick_store.
      apply Hst, Hr.
    + rewrite Hc. cbn [capture set_capture].
      rewrite Hsc, Hvt, Hu, init_objs. cbn [scene unhandledRejection set_capture].
      destruct Hcap as [_ Hur].
      repeat split; [apply count_occ_scene_add | discriminate | exact Hur].
  - (* AnimationFrame *)
    destruct (pendingFrames s) as [|n] eqn:P; [split; assumption|].
    destruct (tick_rest v reading (set_pendingFrames (fun _ => n) s))
      as (Hsc & _ & _ & _ & Hvt & Hc & Hu & Hp & Hf).
    split.
    + intros r Hr. rewrite tick_objs, erase_tick_store. apply Hst, Hr.
    + rewrite Hc. cbn [capture set_pendingFrames].
      destruct (capture s) eqn:C;
        try (destruct Hcap as [(_ & _ & _ & Hp0 & _) _]; congruence).
      rewrite Hsc, Hvt, Hu, tick_objs, tick_store_screen.
      cbn [scene videoTexture objs unhandledRejection set_pendingFrames].
      destruct Hcap as (H1 & H2 & H3 & H4).
      repeat split; try assumption.
      destruct (videoTexture s); [discriminate | congruence].
  - (* Resize *)
    rewrite onResize_shape. split; [exact Hst | exact Hcap].
  - (* PanelInput *)
    destruct (panel_write_rest (program v) target value s)
      as (Hsc & _ & _ & _ & Hvt & Hc & Hu & Hp & Hf).
    split.
    + intros r Hr.
      destruct (panel_write_objs (program v) target value s r) as [E | [y E]];
        rewrite E; [apply Hst, Hr|].
      rewrite <- (Hst r Hr). destruct (objs s r); [|reflexivity].
      cbn. now rewrite erase_with_intensity.
    + rewrite Hc.
      assert (Hscr : objs s Ref.screen = None \/ objs s Ref.screen = Some (screen_of v)).
      { unfold no_screen in Hcap. destruct (capture s); intuition. }
      assert (Hscr' : objs (exec (panel_write (program v) target value) s) Ref.screen
                      = objs s Ref.screen).
      { destruct (panel_write_objs (program v) target value s Ref.screen)
          as [E | [y E]]; [exact E|].
        rewrite E. destruct Hscr as [-> | ->]; [reflexivity|].
        cbn. now rewrite with_intensity_screen. }
      unfold no_screen in *. rewrite Hsc, Hvt, Hu, Hp, Hf, Hscr'. exact Hcap.
Qed.

Lemma run_app (p : script) (a b : list event) (s : session) :
  run p (a ++ b) s = run p b (run p a s).
Proof. apply fold_left_app. Qed.

Lemma run_good (v : variant) (evs : list event) (s : session) :
  good v s -> good v (run (program v) evs s).
Proof.
  revert s. induction evs as [|e evs IH]; intros s H; [exact H|].
  cbn. apply IH, step_good, H.
Qed.

Lemma reachable_good (v : variant) (w h d : R) (evs : list event) :
  good v (run (program v) evs (boot (program v) w h d)).
Proof. apply run_good, boot_good. Qed.

Lemma tick_store_ok (v : variant) (t : R) (s : session) :
  store_ok v s -> store_ok v (exec (tick (program v) t) s).
Proof.
  intros H r Hr. rewrite tick_objs, erase_tick_store. apply H, Hr.
Qed.

Lemma frame_loop_store_ok (v : variant) (ts : list R) (s : session) :
  store_ok v s -> store_ok v (frame_loop (program v) ts s).
Proof.
  revert s. induction ts as [|t ts IH]; intros s H; [exact H|].
  cbn. apply IH, tick_store_ok, H.
Qed.

Lemma store_bound (v : variant) (s : session) (r : Ref.t) (o0 : Object3D) :
  store_ok v s -> r <> Ref.screen -> layout v r = Some o0 ->
  exists o, objs s r = Some o /\ erase v r o = erase v r o0.
Proof.
  intros Hst Hr L. specialize (Hst r Hr). rewrite L in Hst.
  destruct (objs s r) as [o|]; [|discriminate].
  exists o. split; [reflexivity|]. now injection Hst.
Qed.



Ltac componentwise :=
  repeat match goal with
         | |- Some _ = Some _ => f_equal
         | |- _ :: _ = _ :: _ => f_equal
         | |- Vector3.new _ _ _ = Vector3.new _ _ _ => f_equal
         end.

Ltac bound H r :=
  let o := fresh "o" in let E := fresh "E" in let K := fresh "K" in
  destruct (store_bound _ _ r _ H ltac:(discriminate) eq_refl) as (o & E & K).

(** ** The transforms a frame produces *)

Lemma tick_transforms (v : variant) (t : R) (s : session) :
  store_ok v s -> transforms v (exec (tick (program v) t) s) = formulas v t.
Proof.
  intros H. destruct v; unfold transforms, formulas; cbn [map];
    rewrite !tick_objs; unfold tick_store; cbn [rotates moves].
  - bound H Ref.sphere. bound H Ref.cube. bound H Ref.torus.
    rewrite E, E0, E1. reflexivity.
  - bound H Ref.movingLight1. bound H Ref.movingLight2. bound H Ref.movingLight3.
    rewrite E, E0, E1.
    cbn [option_map with_position position Vector3.x Vector3.y Vector3.z].
    replace (t * 0.5) with (0.5 * t) by lra.
    replace (- t * 0.5) with (-0.5 * t) by lra.
    replace (t * 2) with (2 * t) by lra.
    replace (t * 2.5) with (2.5 * t) by lra.
    replace (t * 0.25) with (0.25 * t) by lra.
    replace (t * 0.32) with (0.32 * t) by lra.
    replace (t * 1.5) with (1.5 * t) by lra.
    componentwise; lra.
Qed.

Lemma step_settled (v : variant) (e : event) (s : session) :
  capture s = Resolved \/ capture s = Rejected ->
  capture (step (program v) e s) = capture s.
Proof.
  intros H. destruct e; cbn [step].
  - destruct H as [H | H]; rewrite H; exact H.
  - destruct H as [H | H]; rewrite H; exact H.
  - destruct H as [H | H]; rewrite H; exact H.
  - destruct (pendingFrames s); [reflexivity|].
    now destruct (tick_rest v reading (set_pendingFrames (fun _ => n) s))
      as (_ & _ & _ & _ & _ & -> & _).
  - reflexivity.
  - now destruct (panel_write_rest (program v) target value s)
      as (_ & _ & _ & _ & _ & -> & _).
Qed.

Lemma run_settled (v : variant) (evs : list event) (s : session) :
  capture s = Resolved \/ capture s = Rejected ->
  capture (run (program v) evs s) = capture s.
Proof.
  revert s. induction evs as [|e evs IH]; intros s H; [reflexivity|].
  change (run (program v) (e :: evs) s)
    with (run (program v) evs (step (program v) e s)).
  rewrite IH; rewrite step_settled; auto.
Qed.

(** ** The two scripts on a concrete run *)

Example script_scene_after_init :
  scene (run Script.program [StreamGranted; MetadataLoaded 0]
             (boot Script.program 800 600 1)) =
  [Ref.ambientLight; Ref.directionalLight; Ref.pointLight; Ref.rectAreaLight;
   Ref.directionalLightHelper; Ref.pointLightHelper; Ref.rectAreaLightHelper;
   Ref.sphere; Ref.cube; Ref.torus; Ref.plane; Ref.camera; Ref.screen].
Proof. reflexivity. Qed.

Example moving_lights_scene_after_init :
  scene (run MovingLights.program [StreamGranted; MetadataLoaded 0]
             (boot MovingLights.program 800 600 1)) =
  [Ref.ambientLight; Ref.movingLight1; Ref.movingLight2; Ref.movingLight3;
   Ref.rectAreaLight; Ref.directionalLight; Ref.rectAreaLightHelper;
   Ref.plane; Ref.camera; Ref.screen].
Proof. reflexivity. Qed.

Example three_frames_rendered :
  let s := run Script.program
               [StreamGranted; MetadataLoaded 0; AnimationFrame 1;
                Resize 1024 768 2; AnimationFrame 2]
               (boot Script.program 800 600 1) in
  frames s = 3%nat /\ pendingFrames s = 1%nat /\
  rotation_of s Ref.cube = Some (Vector3.new (0.15 * 2) (0.1 * 2) 0) /\
  aspect (camera s) = 1024 / 768.
Proof. repeat split. Qed.

Example frames_before_init_do_nothing :
  let s := run MovingLights.program
               [AnimationFrame 1; StreamGranted; AnimationFrame 2]
               (boot MovingLights.program 800 600 1) in
  capture s = AwaitingMetadata /\ frames s = 0%nat /\
  pendingFrames s = 0%nat /\ position_of s Ref.movingLight1 = Some Vector3.zero.
Proof. repeat split. Qed.

(** * The claims *)

(** ** Variant 2: the paths of the moving lights *)

(** C1. In variant 2, for every elapsed time [t], one execution of the tick
    body leaves [movingLight1.position = (2 cos(0.5t), sin t, 2 sin(0.5t))],
    [movingLight2.position = (2.5 cos(-0.5t), sin(2t) + sin(2.5t),
    2.55 sin(-0.5t))] and [movingLight3.position = ((2 + sin(0.32t)) cos(0.25t),
    2 sin(1.5t), (3 + sin(0.5t)) sin(0.25t))]; in particular the y-coordinate
    of [movingLight3] is [2 sin(1.5t)].  The session is any one the script
    can be in. *)
Theorem moving_light_positions (w h d : R) (evs : list event) (t : R) :
  let s := run MovingLights.program evs (boot MovingLights.program w h d) in
  let s' := exec (MovingLights.tick t) s in
  position_of s' Ref.movingLight1 =
    Some (Vector3.new (2 * cos (0.5 * t)) (sin t) (2 * sin (0.5 * t))) /\
  position_of s' Ref.movingLight2 =
    Some (Vector3.new (2.5 * cos (- 0.5 * t)) (sin (2 * t) + sin (2.5 * t))
                      (2.55 * sin (- 0.5 * t))) /\
  position_of s' Ref.movingLight3 =
    Some (Vector3.new ((2 + sin (0.32 * t)) * cos (0.25 * t))
                      (2 * sin (1.5 * t))
                      ((3 + sin (0.5 * t)) * sin (0.25 * t))) /\
  option_map Vector3.y (position_of s' Ref.movingLight3) =
    Some (2 * sin (1.5 * t)).
Proof.
  intros s s'.
  pose proof (good_store _ _ (reachable_good Variant2 w h d evs)) as H.
  change (store_ok Variant2 s) in H.
  unfold position_of. subst s'.
  change (MovingLights.tick t) with (tick (program Variant2) t).
  rewrite !tick_objs. unfold tick_store; cbn [rotates moves].
  bound H Ref.movingLight1. bound H Ref.movingLight2. bound H Ref.movingLight3.
  rewrite E, E0, E1.
  cbn [option_map with_position position Vector3.y].
  replace (t * 0.5) with (0.5 * t) by lra.
  replace (- t * 0.5) with (-0.5 * t) by lra.
  replace (t * 2) with (2 * t) by lra.
  replace (t * 2.5) with (2.5 * t) by lra.
  replace (t * 0.25) with (0.25 * t) by lra.
  replace (t * 0.32) with (0.32 * t) by lra.
  replace (t * 1.5) with (1.5 * t) by lra.
  repeat split; componentwise; lra.
Qed.

(** ** Variant 1: the rotating meshes *)

(** C2. In variant 1, for every elapsed time [t >= 0], one execution of the
    tick body sets [rotation.y] to [0.1 t] and [rotation.x] to [0.15 t] for
    each of [sphere], [cube] and [torus]; so after any tick the three
    [rotation.x] are equal and the three [rotation.y] are equal. *)
Theorem mesh_rotations (w h d : R) (evs : list event) (t : R) :
  0 <= t ->
  let s := run Script.program evs (boot Script.program w h d) in
  let s' := exec (Script.tick t) s in
  let rx r := option_map Vector3.x (rotation_of s' r) in
  let ry r := option_map Vector3.y (rotation_of s' r) in
  (ry Ref.sphere = Some (0.1 * t) /\ ry Ref.cube = Some (0.1 * t) /\
   ry Ref.torus = Some (0.1 * t)) /\
  (rx Ref.sphere = Some (0.15 * t) /\ rx Ref.cube = Some (0.15 * t) /\
   rx Ref.torus = Some (0.15 * t)) /\
  (rx Ref.sphere = rx Ref.cube /\ rx Ref.cube = rx Ref.torus) /\
  (ry Ref.sphere = ry Ref.cube /\ ry Ref.cube = ry Ref.torus).
Proof.
  intros _ s s' rx ry.
  pose proof (good_store _ _ (reachable_good Variant1 w h d evs)) as H.
  change (store_ok Variant1 s) in H.
  assert (K : forall r, rotates Variant1 r = true ->
                        rx r = Some (0.15 * t) /\ ry r = Some (0.1 * t)).
  { intros r Hr. unfold rx, ry, rotation_of. subst s'.
    change (Script.tick t) with (tick (program Variant1) t).
    rewrite tick_objs. unfold tick_store. rewrite Hr.
    destruct r; try discriminate Hr.
    - bound H Ref.sphere. rewrite E. split; reflexivity.
    - bound H Ref.cube. rewrite E. split; reflexivity.
    - bound H Ref.torus. rewrite E. split; reflexivity. }
  destruct (K Ref.sphere eq_refl) as [-> ->].
  destruct (K Ref.cube eq_refl) as [-> ->].
  destruct (K Ref.torus eq_refl) as [-> ->].
  repeat split; reflexivity.
Qed.

(** An instance: two seconds on the clock, in a session whose loop is
    already running. *)
Lemma mesh_rotations_witness :
  0 <= 2 /\
  option_map Vector3.y
    (rotation_of
       (exec (Script.tick 2)
          (run Script.program [StreamGranted; MetadataLoaded 0; AnimationFrame 1]
             (boot Script.program 800 600 1)))
       Ref.torus) = Some (0.1 * 2).
Proof.
  split; [lra|].
  apply (mesh_rotations 800 600 1 [StreamGranted; MetadataLoaded 0; AnimationFrame 1] 2).
  lra.
Defined.

(** ** Camera access denied *)

(** C3, as the spec has it, fails: with the camera denied the rejection is
    unhandled and no screen is added, but no frame callback waits and a
    frame renders nothing: [tick] is first called at the end of [init]. *)
Lemma denied_camera_stops_the_loop :
  let s := run Script.program [StreamDenied; AnimationFrame 1]
               (boot Script.program 800 600 1) in
  capture s = Rejected /\
  unhandledRejection s = true /\
  ~ In Ref.screen (scene s) /\
  ~ frame_loop_runs s /\
  frames s = 0%nat.
Proof.
  cbv zeta. repeat split.
  - cbn. intuition discriminate.
  - unfold frame_loop_runs. cbn. lia.
Qed.

(** C3, amended.  If the Capture Source promise rejects, the rejection is
    unhandled, the screen mesh is not in the scene and there is no video
    texture; the frame loop never starts: no frame callback is pending and
    nothing has been rendered, and all of this stays so whatever happens
    later. *)
Theorem denied_camera (v : variant) (w h d : R) (evs : list event) :
  let s := run (program v) evs (boot (program v) w h d) in
  capture s = Rejected ->
  unhandledRejection s = true /\
  ~ In Ref.screen (scene s) /\
  videoTexture s = None /\
  ~ frame_loop_runs s /\
  frames s = 0%nat /\
  forall later,
    let s' := run (program v) later s in
    capture s' = Rejected /\ ~ In Ref.screen (scene s') /\
    ~ frame_loop_runs s' /\ frames s' = 0%nat.
Proof.
  intros s C.
  assert (K : forall evs', 
             let s' := run (program v) evs' (boot (program v) w h d) in
             capture s' = Rejected ->
             unhandledRejection s' = true /\ ~ In Ref.screen (scene s') /\
             videoTexture s' = None /\ ~ frame_loop_runs s' /\ frames s' = 0%nat).
  { intros evs' s' C'.
    pose proof (good_capture _ _ (reachable_good v w h d evs')) as G.
    fold s' in G. rewrite C' in G.
    destruct G as [(Hs & Hv & _ & Hp & Hf) Hu].
    repeat split; try assumption.
    - now apply (count_occ_not_In Ref.eq_dec).
    - unfold frame_loop_runs. lia. }
  destruct (K evs C) as (H1 & H2 & H3 & H4 & H5).
  do 5 (split; [assumption|]).
  intros later s'.
  assert (C' : capture s' = Rejected).
  { subst s'. rewrite run_settled; auto. }
  subst s' s. rewrite <- run_app in *.
  destruct (K _ C') as (_ & K2 & _ & K4 & K5). auto.
Qed.

(** An instance: a session of variant 2 where the camera is denied and a
    resize and a frame follow. *)
Lemma denied_camera_witness :
  let s := run (program Variant2) [StreamDenied; Resize 1024 768 2; AnimationFrame 1]
               (boot (program Variant2) 800 600 1) in
  capture s = Rejected /\ frames s = 0%nat.
Proof.
  split; [reflexivity|].
  apply (denied_camera Variant2 800 600 1
           [StreamDenied; Resize 1024 768 2; AnimationFrame 1]).
  reflexivity.
Defined.

(** ** The order of the steps of a frame *)




(** ** The resize handler *)

(** C5. For every window size [(W, H)] with [H <> 0], running the resize
    handler leaves [camera.aspect = W / H] (and the projection recomputed
    from it), the render surface at [(W, H)] and the pixel ratio at
    [min(devicePixelRatio, 2)], in both variants. *)
Theorem resize_sets (v : variant) (s : session) (W H devicePixelRatio : R) :
  H <> 0 ->
  let s' := step (program v) (Resize W H devicePixelRatio) s in
  aspect (camera s') = W / H /\
  projection (camera s') =
    (fov (camera s), W / H, near (camera s), far (camera s)) /\
  sizes s' = mkSizes W H /\
  renderer_width (renderer s') = W /\
  renderer_height (renderer s') = H /\
  pixelRatio (renderer s') = Rmin devicePixelRatio 2.
Proof. intros _. repeat split. Qed.

(** An instance: a high-density display, whose ratio 3 is capped. *)
Lemma resize_sets_witness :
  800 <> 0 /\
  pixelRatio (renderer (step (program Variant1) (Resize 1280 800 3)
                             (boot (program Variant1) 640 480 1)))
  = Rmin 3 2.
Proof.
  split; [lra|].
  apply (resize_sets Variant1 (boot (program Variant1) 640 480 1) 1280 800 3).
  lra.
Defined.

(** C7. The resize handler is idempotent: for fixed window dimensions,
    running it twice in succession leaves the session (camera, sizes,
    render surface and all the rest) as running it once does. *)
Theorem resize_idempotent (v : variant) (s : session) (W H devicePixelRatio : R) :
  step (program v) (Resize W H devicePixelRatio)
       (step (program v) (Resize W H devicePixelRatio) s) =
  step (program v) (Resize W H devicePixelRatio) s.
Proof.
  cbn [step]. rewrite !onResize_shape.
  cbn [scene objs camera sizes renderer videoTexture capture
       unhandledRejection pendingFrames frames fov near far].
  reflexivity.
Qed.

(** ** The screen and the video texture *)



(** ** Determinism of the frame loop *)

(** C8. The transforms a frame produces depend on the elapsed time alone:
    two runs of the frame loop fed the same sequence of clock readings,
    from any two sessions the script can be in (different windows,
    different histories), agree on the mesh rotations (variant 1) and on the
    moving-light positions (variant 2) after every step, and the values are
    those of the formulas at the latest reading. *)
Theorem frame_loop_deterministic (v : variant)
    (W1 H1 d1 : R) (evs1 : list event) (W2 H2 d2 : R) (evs2 : list event)
    (readings : list R) (t : R) :
  let s1 := run (program v) evs1 (boot (program v) W1 H1 d1) in
  let s2 := run (program v) evs2 (boot (program v) W2 H2 d2) in
  transforms v (frame_loop (program v) (readings ++ [t]) s1) =
  transforms v (frame_loop (program v) (readings ++ [t]) s2) /\
  transforms v (frame_loop (program v) (readings ++ [t]) s1) = formulas v t.
Proof.
  intros s1 s2.
  assert (K : forall s, store_ok v s ->
            transforms v (frame_loop (program v) (readings ++ [t]) s) = formulas v t).
  { intros s Hs. unfold frame_loop. rewrite fold_left_app. cbn [fold_left].
    apply tick_transforms. apply (frame_loop_store_ok v readings s Hs). }
  rewrite !K; [split; reflexivity | |];
    apply good_store, reachable_good.
Qed.

(** ** What a frame of variant 1 leaves alone *)


(** * More of the two scripts *)

(** ** The session-wide invariant *)

Lemma panel_write_store (p : script) (target : Ref.t) (value : R)
    (s : session) (r : Ref.t) :
  objs (exec (panel_write p target value) s) r =
  match controller_of p target with
  | Some c =>
      if Ref.eqb r target
      then option_map
             (with_intensity (Rmax (c_min c) (Rmin (c_max c) value))) (objs s r)
      else objs s r
  | None => objs s r
  end.
Proof.
  unfold panel_write, controller_of. destruct (find _ _); reflexivity.
Qed.

Lemma controller_range (v : variant) (r : Ref.t) (c : controller) :
  controller_of (program v) r = Some c -> c_min c <= c_max c.
Proof.
  destruct v, r; cbn; intros E; try discriminate E;
    injection E as <-; cbn; lra.
Qed.

Lemma clamp_range (lo hi x : R) :
  lo <= hi -> lo <= Rmax lo (Rmin hi x) <= hi.
Proof.
  intros L. unfold Rmax, Rmin.
  destruct (Rle_dec hi x); destruct (Rle_dec lo _); lra.
Qed.


Lemma boot_steady (v : variant) (w h d : R) : steady v (boot (program v) w h d).
Proof.
  split.
  - destruct v; reflexivity.
  - destruct v; split; reflexivity.
  - destruct v; reflexivity.
  - destruct v; repeat split; reflexivity.
  - destruct v; repeat split; try reflexivity; apply Rmin_r.
  - intros r. destruct v, r; try reflexivity.
    all: cbn -[Rle]; eexists; (split; [reflexivity|]); lra.
  - exists 0. intros r Hr. destruct v, r; try discriminate Hr.
    all: unfold rotation_of; cbn; unfold Vector3.zero; componentwise; lra.
  - intros r Hr. destruct v, r; try discriminate Hr.
    all: eexists; (split; [reflexivity|]); unfold in_box; cbn; lra.
Qed.

Lemma intensity_tick_store (v : variant) (t : R)
    (m : Ref.t -> option Object3D) (r : Ref.t) :
  match tick_store v t m r with Some o => intensity o | None => None end =
  match m r with Some o => intensity o | None => None end.
Proof.
  unfold tick_store.
  destruct (rotates v r), (moves v r), (m r); reflexivity.
Qed.

Lemma rotation_with_intensity (y : R) (o : Object3D) :
  rotation (with_intensity y o) = rotation o.
Proof. destruct o as [k p e sc la]; destruct k; reflexivity. Qed.

Lemma position_with_intensity (y : R) (o : Object3D) :
  position (with_intensity y o) = position o.
Proof. destruct o as [k p e sc la]; destruct k; reflexivity. Qed.

Lemma intensity_with_intensity (y : R) (o : Object3D) :
  intensity (with_intensity y o) =
  match intensity o with Some _ => Some y | None => None end.
Proof. destruct o as [k p e sc la]; destruct k; reflexivity. Qed.

Lemma tick_store_in_box (v : variant) (t : R)
    (m : Ref.t -> option Object3D) (r : Ref.t) (p : Vector3.t) :
  moves v r = true -> option_map position (m r) = Some p ->
  exists q, option_map position (tick_store v t m r) = Some q /\ in_box r q.
Proof.
  intros Hm E. unfold tick_store. rewrite Hm.
  replace (rotates v r) with false by (destruct v, r; try discriminate Hm; reflexivity).
  destruct (m r) as [o|]; [|discriminate E].
  eexists. split; [reflexivity|].
  pose proof (SIN_bound t). pose proof (SIN_bound (t * 0.5)).
  pose proof (COS_bound (t * 0.5)). pose proof (SIN_bound (- t * 0.5)).
  pose proof (COS_bound (- t * 0.5)). pose proof (SIN_bound (t * 2)).
  pose proof (SIN_bound (t * 2.5)). pose proof (SIN_bound (t * 0.25)).
  pose proof (COS_bound (t * 0.25)). pose proof (SIN_bound (t * 0.32)).
  pose proof (SIN_bound (t * 1.5)).
  destruct v, r; try discriminate Hm; unfold in_box; cbn -[Rle Rmult Rplus Ropp cos sin];
    repeat split; nra.
Qed.

Lemma tick_store_rotation (v : variant) (t : R)
    (m : Ref.t -> option Object3D) (r : Ref.t) (e : Vector3.t) :
  rotates v r = true -> option_map rotation (m r) = Some e ->
  option_map rotation (tick_store v t m r) =
  Some (Vector3.new (0.15 * t) (0.1 * t) (Vector3.z e)).
Proof.
  intros Hr E. unfold tick_store. rewrite Hr.
  destruct (m r) as [o|]; [|discriminate E].
  cbn in *. now injection E as ->.
Qed.

Lemma Ref_eqb_true (a b : Ref.t) : Ref.eqb a b = true -> a = b.
Proof. unfold Ref.eqb. destruct (Ref.eq_dec a b); congruence. Qed.

Ltac fields :=
  cbn [set_capture set_unhandledRejection set_pendingFrames
       scene objs camera sizes renderer videoTexture capture
       unhandledRejection pendingFrames frames] in *.

Lemma step_steady (v : variant) (e : event) (s : session) :
  steady v s -> steady v (step (program v) e s).
Proof.
  intros H. pose proof H as H0.
  destruct H as [Hsc Hlp Htx Hcam Hsur Hint Hrot Hbox].
  unfold intensity_of, rotation_of, position_of in *.
  destruct e; cbn [step].
  - (* StreamGranted *)
    destruct (capture s) eqn:C; try exact H0.
    split; unfold intensity_of, rotation_of, position_of; fields; assumption.
  - (* StreamDenied *)
    destruct (capture s) eqn:C; try exact H0.
    split; unfold intensity_of, rotation_of, position_of; fields; assumption.
  - (* MetadataLoaded *)
    destruct (capture s) eqn:C; try exact H0.
    destruct (init_rest v reading (set_capture Resolved s))
      as (Isc & Icam & Isz & Ire & Ivt & Ic & _ & Ip & If).
    fields.
    split; unfold intensity_of, rotation_of, position_of;
      rewrite ?Ic, ?Isc, ?Icam, ?Isz, ?Ire, ?Ivt, ?Ip, ?If; fields;
      try assumption.
    + rewrite Hsc, app_nil_r. destruct v; reflexivity.
    + destruct Hlp as [-> ->]. split; [reflexivity | apply le_n].
    + reflexivity.
    + intros r. rewrite init_objs. specialize (Hint r).
      destruct (Ref.eqb r Ref.screen) eqn:Es.
      * apply Ref_eqb_true in Es. subst r. destruct v; reflexivity.
      * rewrite intensity_tick_store. exact Hint.
    + destruct Hrot as [a Ha]. exists reading. intros r Hr.
      rewrite init_objs.
      replace (Ref.eqb r Ref.screen) with false
        by (destruct v, r; try discriminate Hr; reflexivity).
      apply (tick_store_rotation v reading (objs s) r _ Hr (Ha r Hr)).
    + intros r Hr. rewrite init_objs.
      replace (Ref.eqb r Ref.screen) with false
        by (destruct v, r; try discriminate Hr; reflexivity).
      destruct (Hbox r Hr) as (p & Hp & _).
      apply (tick_store_in_box v reading (objs s) r p Hr Hp).
  - (* AnimationFrame *)
    destruct (pendingFrames s) as [|n] eqn:P;
      [exact H0|].
    destruct (tick_rest v reading (set_pendingFrames (fun _ => n) s))
      as (Tsc & Tcam & Tsz & Tre & Tvt & Tc & _ & Tp & Tf).
    fields.
    destruct (capture s) eqn:C; try (destruct Hlp; congruence).
    destruct Hlp as [Hp1 Hf1]. assert (n = 0%nat) by congruence. subst n.
    split; unfold intensity_of, rotation_of, position_of;
      rewrite ?Tc, ?Tsc, ?Tcam, ?Tsz, ?Tre, ?Tvt, ?Tp, ?Tf; fields;
      rewrite ?C; try assumption.
    + split; [reflexivity | lia].
    + rewrite Htx. reflexivity.
    + intros r. rewrite tick_objs, intensity_tick_store. apply Hint.
    + destruct Hrot as [a Ha]. exists reading. intros r Hr.
      rewrite tick_objs.
      apply (tick_store_rotation v reading (objs s) r _ Hr (Ha r Hr)).
    + intros r Hr. rewrite tick_objs.
      destruct (Hbox r Hr) as (p & Hp & _).
      apply (tick_store_in_box v reading (objs s) r p Hr Hp).
  - (* Resize *)
    rewrite onResize_shape.
    split; unfold intensity_of, rotation_of, position_of; fields;
      cbn [fov near far aspect projection width height
           renderer_width renderer_height pixelRatio]; try assumption.
    + destruct Hcam as (F & N & Fa & _). repeat split; assumption.
    + repeat split. apply Rmin_r.
  - (* PanelInput *)
    destruct (panel_write_rest (program v) target value s)
      as (Psc & Pcam & Psz & Pre & Pvt & Pc & _ & Pp & Pf).
    split; unfold intensity_of, rotation_of, position_of;
      rewrite ?Pc, ?Psc, ?Pcam, ?Psz, ?Pre, ?Pvt, ?Pp, ?Pf; try assumption.
    + intros r. rewrite panel_write_store. specialize (Hint r).
      destruct (controller_of (program v) target) as [c|] eqn:Ec; [|exact Hint].
      destruct (Ref.eqb r target) eqn:Er; [|exact Hint].
      apply Ref_eqb_true in Er. subst r. rewrite Ec in *.
      destruct Hint as (i & Hi & _).
      destruct (objs s target) as [o|]; [|discriminate Hi].
      cbn [option_map]. rewrite intensity_with_intensity, Hi.
      eexists. split; [reflexivity|].
      apply clamp_range, (controller_range v target c Ec).
    + destruct Hrot as [a Ha]. exists a. intros r Hr.
      rewrite panel_write_store. specialize (Ha r Hr).
      destruct (controller_of (program v) target); [|exact Ha].
      destruct (Ref.eqb r target); [|exact Ha].
      destruct (objs s r); [|discriminate Ha].
      cbn [option_map] in *. now rewrite rotation_with_intensity.
    + intros r Hr. rewrite panel_write_store.
      destruct (Hbox r Hr) as (p & Hp & Hb). exists p. split; [|exact Hb].
      destruct (controller_of (program v) target); [|exact Hp].
      destruct (Ref.eqb r target); [|exact Hp].
      destruct (objs s r); [|discriminate Hp].
      cbn [option_map] in *. now rewrite position_with_intensity.
Qed.

Lemma reachable_steady (v : variant) (w h d : R) (evs : list event) :
  steady v (run (program v) evs (boot (program v) w h d)).
Proof.
  generalize (boot_steady v w h d). generalize (boot (program v) w h d).
  induction evs as [|e evs IH]; intros s H; [exact H|].
  apply IH, step_steady, H.
Qed.

(** ** The scene graph *)

(** X1. In every session the script can reach, the scene's children are
    those the module body added, in that order, followed by [screen] once
    the webcam has resolved; no object is in the scene twice. *)
Theorem scene_children (v : variant) (W H d : R) (evs : list event) :
  let s := run (program v) evs (boot (program v) W H d) in
  scene s =
    scene_of v ++ match capture s with Resolved => [Ref.screen] | _ => [] end /\
  NoDup (scene s).
Proof.
  intros s.
  pose proof (steady_scene _ _ (reachable_steady v W H d evs)) as E.
  fold s in E. split; [exact E|]. rewrite E.
  destruct v, (capture s); cbn;
    repeat (constructor; [cbn; intuition discriminate|]); constructor.
Qed.

(** ** The frame loop *)

(** X2. Until the webcam resolves no frame callback is pending and nothing
    has been rendered; from then on exactly one callback is pending at any
    time (the loop neither stops nor doubles) and at least one frame has
    been rendered. *)
Theorem one_pending_frame (v : variant) (W H d : R) (evs : list event) :
  let s := run (program v) evs (boot (program v) W H d) in
  match capture s with
  | Resolved => pendingFrames s = 1%nat /\ (1 <= frames s)%nat
  | _ => pendingFrames s = 0%nat /\ frames s = 0%nat
  end.
Proof. intros s. apply (steady_loop _ _ (reachable_steady v W H d evs)). Qed.

(** X3. Once the loop runs, an animation frame renders exactly once and
    leaves one callback pending; before that (or after a denial) an
    animation frame changes nothing. *)
Theorem animation_frame_effect (v : variant) (W H d : R) (evs : list event)
    (t : R) :
  let s := run (program v) evs (boot (program v) W H d) in
  let s' := step (program v) (AnimationFrame t) s in
  match capture s with
  | Resolved =>
      frames s' = S (frames s) /\ pendingFrames s' = 1%nat /\
      scene s' = scene s /\ capture s' = Resolved
  | _ => s' = s
  end.
Proof.
  intros s s'.
  pose proof (steady_loop _ _ (reachable_steady v W H d evs)) as L. fold s in L.
  subst s'. cbn [step].
  destruct (capture s) eqn:C; destruct L as [P F]; rewrite P; try reflexivity.
  destruct (tick_rest v t (set_pendingFrames (fun _ => 0%nat) s))
    as (Tsc & _ & _ & _ & _ & Tc & _ & Tp & Tf).
  rewrite Tsc, Tc, Tp, Tf. cbn. auto.
Qed.

(** X16. A frame overwrites the one before it: two ticks in a row leave
    the store, the texture and the scene as the second tick alone does; only
    the frame counters tell them apart. *)
Theorem tick_overwrites (v : variant) (s : session) (t1 t2 : R) :
  let one := exec (tick (program v) t2) s in
  let two := exec (tick (program v) t2) (exec (tick (program v) t1) s) in
  (forall r, objs two r = objs one r) /\
  videoTexture two = videoTexture one /\
  scene two = scene one /\
  frames two = S (frames one) /\
  pendingFrames two = S (pendingFrames one).
Proof.
  intros one two. subst one two.
  destruct (tick_rest v t1 s) as (A1 & _ & _ & _ & A5 & _ & _ & A8 & A9).
  destruct (tick_rest v t2 s) as (B1 & _ & _ & _ & B5 & _ & _ & B8 & B9).
  destruct (tick_rest v t2 (exec (tick (program v) t1) s))
    as (C1 & _ & _ & _ & C5 & _ & _ & C8 & C9).
  rewrite C1, C5, C8, C9, A1, A5, A8, A9, B1, B5, B8, B9.
  repeat split; try reflexivity.
  - intros r. rewrite !tick_objs. unfold tick_store.
    rewrite !tick_objs. unfold tick_store.
    destruct (rotates v r), (moves v r), (objs s r); reflexivity.
  - destruct (videoTexture s); reflexivity.
Qed.

(** ** Camera and render surface *)

(** X4. In every reachable session the camera keeps the field of view 75
    and the planes 0.1 and 100 it was built with, and its projection is the
    one computed from its current aspect: no event leaves the projection
    stale. *)
Theorem projection_in_sync (v : variant) (W H d : R) (evs : list event) :
  let s := run (program v) evs (boot (program v) W H d) in
  fov (camera s) = 75 /\ near (camera s) = 0.1 /\ far (camera s) = 100 /\
  projection (camera s) = (75, aspect (camera s), 0.1, 100).
Proof.
  intros s.
  destruct (steady_camera _ _ (reachable_steady v W H d evs))
    as (F & N & Fa & P).
  fold s in F, N, Fa, P. rewrite P, F, N, Fa. auto.
Qed.

(** X5. In every reachable session the render surface has the size
    recorded in [sizes], the camera's aspect is [sizes.width / sizes.height]
    and the pixel ratio is at most 2. *)
Theorem surface_follows_sizes (v : variant) (W H d : R) (evs : list event) :
  let s := run (program v) evs (boot (program v) W H d) in
  renderer_width (renderer s) = width (sizes s) /\
  renderer_height (renderer s) = height (sizes s) /\
  aspect (camera s) = width (sizes s) / height (sizes s) /\
  pixelRatio (renderer s) <= 2.
Proof. intros s. apply (steady_surface _ _ (reachable_steady v W H d evs)). Qed.

(** X6. The last resize wins: a resize after another leaves the session as
    the later one alone does. *)
Theorem resize_last_wins (v : variant) (s : session) (W1 H1 d1 W2 H2 d2 : R) :
  step (program v) (Resize W2 H2 d2) (step (program v) (Resize W1 H1 d1) s) =
  step (program v) (Resize W2 H2 d2) s.
Proof.
  cbn [step]. rewrite !onResize_shape.
  cbn [scene objs camera sizes renderer videoTexture capture
       unhandledRejection pendingFrames frames fov near far].
  reflexivity.
Qed.

(** X7. The resize handler and a frame do not interfere: in either order
    they leave the same session. *)
Theorem resize_commutes_with_tick (v : variant) (s : session) (W H d t : R) :
  exec (tick (program v) t) (exec (onResize W H d) s) =
  exec (onResize W H d) (exec (tick (program v) t) s).
Proof.
  destruct s as [sc ob ca sz re vt cp ur pf fr].
  destruct vt, v; reflexivity.
Qed.

(** ** The debug panel *)

(** X8. In every reachable session each light bound to a slider has an
    intensity within that slider's range, and every other object has the
    intensity (if any) the module body gave it. *)
Theorem intensities_in_range (v : variant) (W H d : R) (evs : list event)
    (r : Ref.t) :
  let s := run (program v) evs (boot (program v) W H d) in
  match controller_of (program v) r with
  | Some c => exists i, intensity_of s r = Some i /\ c_min c <= i <= c_max c
  | None => intensity_of s r = intensity_of (boot (program v) W H d) r
  end.
Proof.
  intros s.
  pose proof (steady_intensity _ _ (reachable_steady v W H d evs) r) as I.
  fold s in I.
  destruct (controller_of (program v) r); [exact I|].
  rewrite I. destruct v, r; reflexivity.
Qed.



(** ** The moving lights of variant 2 *)

(** X10. In every reachable session of variant 2 the moving lights stay in
    fixed boxes around the origin: [movingLight1] within 2 x 1 x 2,
    [movingLight2] within 2.5 x 2 x 2.55 and [movingLight3] within
    3 x 2 x 4 (half-widths along x, y, z). *)
Theorem moving_lights_bounded (W H d : R) (evs : list event) :
  let s := run MovingLights.program evs (boot MovingLights.program W H d) in
  let within r bx by_ bz :=
    exists p, position_of s r = Some p /\
      (- bx <= Vector3.x p <= bx) /\ (- by_ <= Vector3.y p <= by_) /\
      (- bz <= Vector3.z p <= bz) in
  within Ref.movingLight1 2 1 2 /\
  within Ref.movingLight2 2.5 2 2.55 /\
  within Ref.movingLight3 3 2 4.
Proof.
  intros s within.
  pose proof (steady_box _ _ (reachable_steady Variant2 W H d evs)) as B.
  change (run (program Variant2) evs (boot (program Variant2) W H d))
    with s in B.
  repeat split.
  - destruct (B Ref.movingLight1 eq_refl) as (p & E & K). exists p. auto.
  - destruct (B Ref.movingLight2 eq_refl) as (p & E & K). exists p. auto.
  - destruct (B Ref.movingLight3 eq_refl) as (p & E & K). exists p. auto.
Qed.


(** X12. [movingLight2] circles against [movingLight1]: after any tick of
    variant 2 its x-coordinate is 2.5/2 of [movingLight1]'s and its
    z-coordinate is -2.55/2 of it. *)
Theorem moving_lights_counter_rotate (W H d : R) (evs : list event) (t : R) :
  let s := run MovingLights.program evs (boot MovingLights.program W H d) in
  let s' := exec (MovingLights.tick t) s in
  exists p1 p2,
    position_of s' Ref.movingLight1 = Some p1 /\
    position_of s' Ref.movingLight2 = Some p2 /\
    Vector3.x p2 = 2.5 / 2 * Vector3.x p1 /\
    Vector3.z p2 = - (2.55 / 2) * Vector3.z p1.
Proof.
  intros s s'.
  pose proof (good_store _ _ (reachable_good Variant2 W H d evs)) as G.
  change (store_ok Variant2 s) in G.
  unfold position_of. subst s'.
  change (MovingLights.tick t) with (tick (program Variant2) t).
  rewrite !tick_objs. unfold tick_store; cbn [rotates moves].
  bound G Ref.movingLight1. bound G Ref.movingLight2.
  rewrite E, E0. cbn [option_map with_position position].
  do 2 eexists. split; [reflexivity|]. split; [reflexivity|].
  cbn [Vector3.x Vector3.z].
  replace (- t * 0.5) with (- (t * 0.5)) by lra.
  rewrite cos_neg, sin_neg. split; lra.
Qed.


(** ** The meshes of variant 1 *)

(** X14. In every reachable session of variant 1, not only right after a
    tick, [sphere], [cube] and [torus] have one and the same rotation, of
    the form [(0.15 a, 0.1 a, 0)]: they never turn about z and
    [rotation.x : rotation.y] is 3 : 2. *)
Theorem meshes_turn_together (W H d : R) (evs : list event) :
  let s := run Script.program evs (boot Script.program W H d) in
  exists a,
    rotation_of s Ref.sphere = Some (Vector3.new (0.15 * a) (0.1 * a) 0) /\
    rotation_of s Ref.cube = Some (Vector3.new (0.15 * a) (0.1 * a) 0) /\
    rotation_of s Ref.torus = Some (Vector3.new (0.15 * a) (0.1 * a) 0).
Proof.
  intros s.
  destruct (steady_rotation _ _ (reachable_steady Variant1 W H d evs)) as [a Ha].
  exists a. repeat split; apply Ha; reflexivity.
Qed.

(** ** What no event changes *)



(** X17. A slider input and a frame do not interfere: in either order they
    leave the same objects, texture, scene, camera, render surface and
    frame counters. *)
Theorem slider_commutes_with_tick (v : variant) (s : session)
    (target : Ref.t) (value t : R) :
  let a := step (program v) (PanelInput target value)
                (exec (tick (program v) t) s) in
  let b := exec (tick (program v) t)
                (step (program v) (PanelInput target value) s) in
  (forall r, objs a r = objs b r) /\
  videoTexture a = videoTexture b /\ scene a = scene b /\
  camera a = camera b /\ sizes a = sizes b /\ renderer a = renderer b /\
  frames a = frames b /\ pendingFrames a = pendingFrames b.
Proof.
  intros a b. subst a b. cbn [step].
  destruct (panel_write_rest (program v) target value s)
    as (A1 & A2 & A3 & A4 & A5 & _ & _ & A8 & A9).
  destruct (panel_write_rest (program v) target value
              (exec (tick (program v) t) s))
    as (B1 & B2 & B3 & B4 & B5 & _ & _ & B8 & B9).
  destruct (tick_rest v t s) as (C1 & C2 & C3 & C4 & C5 & _ & _ & C8 & C9).
  destruct (tick_rest v t (exec (panel_write (program v) target value) s))
    as (D1 & D2 & D3 & D4 & D5 & _ & _ & D8 & D9).
  rewrite B1, B2, B3, B4, B5, B8, B9, D1, D2, D3, D4, D5, D8, D9,
          C1, C2, C3, C4, C5, C8, C9, A1, A2, A3, A4, A5, A8, A9.
  repeat split.
  intros r. rewrite panel_write_store, !tick_objs. unfold tick_store.
  rewrite !panel_write_store.
  destruct (controller_of (program v) target); [|reflexivity].
  destruct (Ref.eqb r target); [|reflexivity].
  destruct (rotates v r), (moves v r), (objs s r) as [[k p e sc la]|];
    try reflexivity; destruct k; reflexivity.
Qed.
